(** * The users controller: request handlers over an external users service

    A shallow embedding of [src/api/components/users/users-controller.js].
    Every handler is an [async] function whose whole body sits inside one
    [try { ... } catch (error) { return next(error); }].  The collaborators
    it talks to (the users service, the password utility, Express'
    [response] object) are not part of the controller, so a handler is
    embedded as a finite tree of collaborator calls: each node names the
    call with its arguments and continues with whatever the collaborator
    replies, a returned value or a thrown error. *)

From Stdlib Require Import ZArith.
From stdpp Require Import gmap strings list fin_maps.

Set Warnings "-register-all".

Local Open Scope Z_scope.

(** ** JavaScript values *)

(** The values that flow through the controller: the fields of a parsed
    request, the results of the service, the bodies handed to
    [response.json].  Arrays and objects are kept apart from the primitive
    values because [!x] and [===] treat them differently. *)
Inductive jsval : Type :=
| VUndefined
| VNull
| VBool (b : bool)
| VNum (n : Z)
| VNaN
| VStr (s : string)
| VArr (items : list jsval)
| VObj (fields : list (string * jsval)).

(** [!x] is [negb (truthy x)]: the falsy values are [undefined], [null],
    [false], [0], [NaN] and the empty string; every array and object
    (a promise included) is truthy. *)
Definition truthy (v : jsval) : bool :=
  match v with
  | VUndefined | VNull | VNaN => false
  | VBool b => b
  | VNum n => negb (n =? 0)
  | VStr s => negb (bool_decide (s = ""))
  | VArr _ | VObj _ => true
  end.

(** [a === b].  Primitive values are compared by type and value, [NaN] is
    equal to nothing.  Objects and arrays are compared by identity; the
    controller only ever compares two different fields of a parsed request
    body, or a service result with the literal [null], and in both cases two
    objects are never the same object. *)
Definition strict_eq (a b : jsval) : bool :=
  match a, b with
  | VUndefined, VUndefined => true
  | VNull, VNull => true
  | VBool x, VBool y => bool_decide (x = y)
  | VNum x, VNum y => bool_decide (x = y)
  | VStr x, VStr y => bool_decide (x = y)
  | _, _ => false
  end.

(** [a !== b] *)
Definition strict_neq (a b : jsval) : bool := negb (strict_eq a b).

(** ** Errors *)

(** Modelled from the spec: [core/errors] is not among the sources.  These
    are the kinds of the [errorTypes] enumeration that the controller
    names. *)
Inductive errorType : Type :=
| UNPROCESSABLE_ENTITY
| INVALID_PASSWORD
| EMAIL_ALREADY_TAKEN
| SERVER.

(** What can be thrown inside a handler and caught by its [catch]. *)
Inductive error : Type :=
| Responder (kind : errorType) (message : string)
| TypeError (base : jsval) (key : string)
| Thrown (v : jsval).

(** Modelled from the spec: [core/errors] is not among the sources.  The
    spec describes a typed error as a (kind, message) pair built by
    [errorResponder] from an entry of the [errorTypes] enumeration. *)
Definition errorResponder (kind : errorType) (message : string) : error :=
  Responder kind message.

(** ** Property access *)

Fixpoint assoc (key : string) (fields : list (string * jsval)) : option jsval :=
  match fields with
  | [] => None
  | (k, v) :: rest => if bool_decide (k = key) then Some v else assoc key rest
  end.

(** [undefined] and [null] have no properties. *)
Definition nullish (v : jsval) : bool :=
  match v with
  | VUndefined | VNull => true
  | _ => false
  end.

(** The value of [base.key] on a base that has properties, for the keys the
    controller reads ([id], [name], [email], [password], ...): the field of
    an object, and [undefined] when the field is missing or the base is a
    primitive value or an array. *)
Definition field (base : jsval) (key : string) : jsval :=
  match base with
  | VObj fields => default VUndefined (assoc key fields)
  | _ => VUndefined
  end.

(** [base.key]: a [TypeError] on [undefined] and [null]. *)
Definition get_prop (base : jsval) (key : string) : error + jsval :=
  if nullish base then inl (TypeError base key) else inr (field base key).

(** The Express request, as far as the controller reads it. *)
Record Request : Type := mkRequest { params : jsval; body : jsval }.

(** ** Collaborator calls *)

(** One constructor per call the controller makes, with the arguments it
    passes. *)
Inductive call : Type :=
| GetUsers
| GetUser (id : jsval)
| GetUserByEmail (email : jsval)
| CreateUser (name email password : jsval)
| UpdateUser (id name email : jsval)
| DeleteUser (id : jsval)
| UpdatePassword (id password : jsval)
| PasswordMatched (password hashed : jsval)
| ResJson (status : Z) (payload : jsval).

(** What the handler observes of a call.  For an awaited service call
    [Returned v] is the value the promise resolved to and [Raised e] covers
    both a synchronous throw and a rejection.  [passwordMatched] is called
    without [await]: there [Returned v] is the value the function itself
    returned. *)
Inductive reply : Type :=
| Returned (v : jsval)
| Raised (e : error).

(** ** Handler programs *)

Inductive prog (A : Type) : Type :=
| Ret (a : A)
| Throw (e : error)
| Call (c : call) (k : reply -> prog A).

Arguments Ret {A} a.
Arguments Throw {A} e.
Arguments Call {A} c k.

Fixpoint bind {A B : Type} (p : prog A) (f : A -> prog B) : prog B :=
  match p with
  | Ret a => f a
  | Throw e => Throw e
  | Call c k => Call c (fun r => bind (k r) f)
  end.

Notation "x <- c ;; k" := (bind c (fun x => k))
  (at level 100, c at next level, right associativity).

(** [try { p } catch (error) { h(error) }] *)
Fixpoint try_catch {A : Type} (p : prog A) (h : error -> prog A) : prog A :=
  match p with
  | Ret a => Ret a
  | Throw e => h e
  | Call c k => Call c (fun r => try_catch (k r) h)
  end.

(** A collaborator call whose failure is thrown at the call site. *)
Definition invoke (c : call) : prog jsval :=
  Call c (fun r => match r with Returned v => Ret v | Raised e => Throw e end).

(** [await usersService.f(...)] *)
Definition await (c : call) : prog jsval := invoke c.

(** [base.key] as a step of a handler *)
Definition prop (base : jsval) (key : string) : prog jsval :=
  match get_prop base key with
  | inl e => Throw e
  | inr v => Ret v
  end.

(** How a handler ends: it answered through [response], or it handed an
    error to [next]. *)
Inductive outcome : Type :=
| Responded (status : Z) (payload : jsval)
| Forwarded (e : error).

(** [return response.status(status).json(payload)] *)
Definition send (status : Z) (payload : jsval) : prog outcome :=
  _ <- invoke (ResJson status payload);; Ret (Responded status payload).

(** [return next(error)] *)
Definition next (e : error) : prog outcome := Ret (Forwarded e).

(** ** The six handlers *)

Definition getUsers (request : Request) : prog outcome :=
  try_catch
    (users <- await GetUsers;;
     send 200 users)
    next.

Definition getUser (request : Request) : prog outcome :=
  try_catch
    (id <- prop (params request) "id";;
     user <- await (GetUser id);;
     if negb (truthy user)
     then Throw (errorResponder UNPROCESSABLE_ENTITY "Unknown user")
     else send 200 user)
    next.

Definition createUser (request : Request) : prog outcome :=
  try_catch
    (name <- prop (body request) "name";;
     email <- prop (body request) "email";;
     password <- prop (body request) "password";;
     password_confirm <- prop (body request) "password_confirm";;
     if strict_neq password password_confirm
     then Throw (errorResponder INVALID_PASSWORD
                   "Failed to create user, password is not same")
     else
       user <- await (GetUserByEmail email);;
       if strict_neq user VNull
       then Throw (errorResponder EMAIL_ALREADY_TAKEN
                     "Failed to create user, email is already taken")
       else
         success <- await (CreateUser name email password);;
         if negb (truthy success)
         then Throw (errorResponder UNPROCESSABLE_ENTITY "Failed to create user")
         else send 200 (VObj [("name", name); ("email", email)]))
    next.

Definition updateUser (request : Request) : prog outcome :=
  try_catch
    (id <- prop (params request) "id";;
     name <- prop (body request) "name";;
     email <- prop (body request) "email";;
     success <- await (UpdateUser id name email);;
     if negb (truthy success)
     then Throw (errorResponder UNPROCESSABLE_ENTITY "Failed to update user")
     else send 200 (VObj [("id", id)]))
    next.

Definition deleteUser (request : Request) : prog outcome :=
  try_catch
    (id <- prop (params request) "id";;
     success <- await (DeleteUser id);;
     if negb (truthy success)
     then Throw (errorResponder UNPROCESSABLE_ENTITY "Failed to delete user")
     else send 200 (VObj [("id", id)]))
    next.

Definition updatePassword (request : Request) : prog outcome :=
  try_catch
    (password_old <- prop (body request) "password_old";;
     password_new <- prop (body request) "password_new";;
     password_new_confirm <- prop (body request) "password_new_confirm";;
     if strict_neq password_new password_new_confirm
     then Throw (errorResponder INVALID_PASSWORD
                   "Failed to update password, new password is not same")
     else
       id <- prop (params request) "id";;
       user <- await (GetUser id);;
       if negb (truthy user)
       then Throw (errorResponder UNPROCESSABLE_ENTITY "Unknown user")
       else
         hashed <- prop user "password";;
         isPasswordMatched <- invoke (PasswordMatched password_old hashed);;
         if negb (truthy isPasswordMatched)
         then Throw (errorResponder INVALID_PASSWORD
                       "Failed to update password, wrong password")
         else
           id' <- prop (params request) "id";;
           isUpdatePasswordSuccess <- await (UpdatePassword id' password_new);;
           if negb (truthy isUpdatePasswordSuccess)
           then Throw (errorResponder SERVER
                         "password is not updated, Something is wrong")
           else
             id'' <- prop (params request) "id";;
             send 200 (VObj [("id", id''); ("password_new", password_new);
                             ("message", VStr "password was succesfully updated")]))
    next.

(** The exported handlers by name. *)
Inductive handler : Type :=
| HGetUsers | HGetUser | HCreateUser | HUpdateUser | HDeleteUser | HUpdatePassword.

Definition handle (h : handler) : Request -> prog outcome :=
  match h with
  | HGetUsers => getUsers
  | HGetUser => getUser
  | HCreateUser => createUser
  | HUpdateUser => updateUser
  | HDeleteUser => deleteUser
  | HUpdatePassword => updatePassword
  end.

(** ** Running a handler against its collaborators *)

(** How the handler's own [async] function settles. *)
Inductive completion (A : Type) : Type :=
| Normal (a : A)
| Abrupt (e : error).

Arguments Normal {A} a.
Arguments Abrupt {A} e.

Definition trace : Type := list (call * reply).

Section Run.

(** The collaborators: a world [W] (whatever the service keeps) and the
    reply and new world each call produces. *)
Context {W : Type} (env : call -> W -> reply * W).

Fixpoint run {A : Type} (p : prog A) (w : W) : completion A * W * trace :=
  match p with
  | Ret a => (Normal a, w, [])
  | Throw e => (Abrupt e, w, [])
  | Call c k =>
      let '(r, w1) := env c w in
      let '(o, w2, t) := run (k r) w1 in
      (o, w2, (c, r) :: t)
  end.

End Run.

(** The three components of a run. *)
Definition outcome_of {A W : Type} (r : completion A * W * trace) : completion A := r.1.1.
Definition world_of {A W : Type} (r : completion A * W * trace) : W := r.1.2.
Definition trace_of {A W : Type} (r : completion A * W * trace) : trace := r.2.

(** ** Reading a trace *)

(** The calls of a trace, in order. *)
Definition calls (t : trace) : list call := t.*1.

Definition is_UpdatePassword (c : call) : bool :=
  match c with UpdatePassword _ _ => true | _ => false end.

Definition is_CreateUser (c : call) : bool :=
  match c with CreateUser _ _ _ => true | _ => false end.

(** The responses a run sent: the [response.json] calls that returned. *)
Fixpoint responses (t : trace) : list (Z * jsval) :=
  match t with
  | [] => []
  | (ResJson status payload, Returned _) :: rest => (status, payload) :: responses rest
  | _ :: rest => responses rest
  end.

(** The errors the collaborators threw during a run. *)
Fixpoint failures (t : trace) : list error :=
  match t with
  | [] => []
  | (_, Raised e) :: rest => e :: failures rest
  | _ :: rest => failures rest
  end.

(** The errors a handler raises itself: the typed errors it builds with
    [errorResponder], and the [TypeError] of reading a field of [undefined]
    or [null]. *)
Definition own_error (e : error) : bool :=
  match e with
  | Responder _ _ | TypeError _ _ => true
  | Thrown _ => false
  end.

(** ** What a handler may do *)

Definition is_response (c : call) : bool :=
  match c with ResJson _ _ => true | _ => false end.

(** The collaborator calls that occur in the text of each handler; the
    only status a handler ever sets is 200. *)
Definition may_call (h : handler) (c : call) : bool :=
  match h, c with
  | _, ResJson status _ => status =? 200
  | HGetUsers, GetUsers => true
  | (HGetUser | HUpdatePassword), GetUser _ => true
  | HCreateUser, (GetUserByEmail _ | CreateUser _ _ _) => true
  | HUpdateUser, UpdateUser _ _ _ => true
  | HDeleteUser, DeleteUser _ => true
  | HUpdatePassword, (PasswordMatched _ _ | UpdatePassword _ _) => true
  | _, _ => false
  end.

(** Which function a call is a call of. *)
Definition call_kind (c : call) : nat :=
  match c with
  | GetUsers => 0
  | GetUser _ => 1
  | GetUserByEmail _ => 2
  | CreateUser _ _ _ => 3
  | UpdateUser _ _ _ => 4
  | DeleteUser _ => 5
  | UpdatePassword _ _ => 6
  | PasswordMatched _ _ => 7
  | ResJson _ _ => 8
  end%nat.

(** The call by which a handler asks the service to change a user, with
    the arguments it reads from the request. *)
Definition mutation (h : handler) (request : Request) : option call :=
  match h with
  | HGetUsers | HGetUser => None
  | HCreateUser =>
      Some (CreateUser (field (body request) "name")
              (field (body request) "email") (field (body request) "password"))
  | HUpdateUser =>
      Some (UpdateUser (field (params request) "id")
              (field (body request) "name") (field (body request) "email"))
  | HDeleteUser => Some (DeleteUser (field (params request) "id"))
  | HUpdatePassword =>
      Some (UpdatePassword (field (params request) "id")
              (field (body request) "password_new"))
  end.

(** The first thing a handler reads from the request. *)
Definition first_read (h : handler) (request : Request) : option (jsval * string) :=
  match h with
  | HGetUsers => None
  | HGetUser | HUpdateUser | HDeleteUser => Some (params request, "id")
  | HCreateUser => Some (body request, "name")
  | HUpdatePassword => Some (body request, "password_old")
  end.

(** The errors each handler raises in its own text: the [throw]
    statements, and the reads of [request.params] and [request.body]. *)
Definition raises (h : handler) (request : Request) : list error :=
  match h with
  | HGetUsers => []
  | HGetUser =>
      [TypeError (params request) "id";
       errorResponder UNPROCESSABLE_ENTITY "Unknown user"]
  | HCreateUser =>
      [TypeError (body request) "name";
       errorResponder INVALID_PASSWORD "Failed to create user, password is not same";
       errorResponder EMAIL_ALREADY_TAKEN
         "Failed to create user, email is already taken";
       errorResponder UNPROCESSABLE_ENTITY "Failed to create user"]
  | HUpdateUser =>
      [TypeError (params request) "id";
       TypeError (body request) "name";
       errorResponder UNPROCESSABLE_ENTITY "Failed to update user"]
  | HDeleteUser =>
      [TypeError (params request) "id";
       errorResponder UNPROCESSABLE_ENTITY "Failed to delete user"]
  | HUpdatePassword =>
      [TypeError (body request) "password_old";
       errorResponder INVALID_PASSWORD
         "Failed to update password, new password is not same";
       TypeError (params request) "id";
       errorResponder UNPROCESSABLE_ENTITY "Unknown user";
       errorResponder INVALID_PASSWORD "Failed to update password, wrong password";
       errorResponder SERVER "password is not updated, Something is wrong"]
  end.

(** * The users service, in memory *)

(** Modelled from the spec: [users-service], the storage behind it and
    [utils/password] are not among the sources.  The spec gives a user an
    identifier, a name, an email and a hashed password, has the service do
    the lookups and mutations ([getUsers], [getUser], [getUserByEmail],
    [createUser], which hashes the password, [updateUser], [deleteUser],
    [updatePassword]) and report a failed mutation to the controller, and
    has the password utility hash and verify credentials.  Users are kept
    by identifier; a mutation of an identifier that is not stored, or with
    a value that is not a string, reports failure and changes nothing. *)
Record User : Type := mkUser {
  user_name : string;
  user_email : string;
  user_password : string
}.

Definition user_json (id : string) (u : User) : jsval :=
  VObj [("id", VStr id); ("name", VStr (user_name u));
        ("email", VStr (user_email u)); ("password", VStr (user_password u))].

Definition as_string (v : jsval) : option string :=
  match v with
  | VStr s => Some s
  | _ => None
  end.

Section Service.

(** The password utility and the way the storage names a new user. *)
Variable hashPassword : string -> string.
Variable passwordMatched : string -> string -> bool.
Variable new_id : gmap string User -> string.

(** Modelled from the spec: the first stored user with that email. *)
Definition find_by_email (email : string) (st : gmap string User)
  : option (string * User) :=
  head (filter (fun iu => user_email iu.2 = email) (map_to_list st)).

(** Modelled from the spec: [usersService.getUsers()], the whole
    collection. *)
Definition service_getUsers (st : gmap string User) : jsval :=
  VArr ((fun iu => user_json iu.1 iu.2) <$> map_to_list st).

(** Modelled from the spec: [usersService.getUser(id)], the user stored
    under [id], or [null]. *)
Definition service_getUser (id : jsval) (st : gmap string User) : jsval :=
  match as_string id with
  | Some i =>
      match st !! i with
      | Some u => user_json i u
      | None => VNull
      end
  | None => VNull
  end.

(** Modelled from the spec: [usersService.getUserByEmail(email)], a stored
    user with that email, or [null]. *)
Definition service_getUserByEmail (email : jsval) (st : gmap string User) : jsval :=
  match as_string email with
  | Some e =>
      match find_by_email e st with
      | Some (i, u) => user_json i u
      | None => VNull
      end
  | None => VNull
  end.

(** Modelled from the spec: [usersService.createUser(name, email,
    password)] stores a new user with the hashed password and reports
    success. *)
Definition service_createUser (name email password : jsval)
    (st : gmap string User) : jsval * gmap string User :=
  match as_string name, as_string email, as_string password with
  | Some n, Some e, Some p =>
      (VBool true, <[new_id st := mkUser n e (hashPassword p)]> st)
  | _, _, _ => (VNull, st)
  end.

(** Modelled from the spec: [usersService.updateUser(id, name, email)]
    gives the stored user the new name and email; it looks at no other
    user. *)
Definition service_updateUser (id name email : jsval)
    (st : gmap string User) : jsval * gmap string User :=
  match as_string id, as_string name, as_string email with
  | Some i, Some n, Some e =>
      match st !! i with
      | Some u => (VBool true, <[i := mkUser n e (user_password u)]> st)
      | None => (VNull, st)
      end
  | _, _, _ => (VNull, st)
  end.

(** Modelled from the spec: [usersService.deleteUser(id)] removes the
    stored user. *)
Definition service_deleteUser (id : jsval)
    (st : gmap string User) : jsval * gmap string User :=
  match as_string id with
  | Some i =>
      match st !! i with
      | Some _ => (VBool true, delete i st)
      | None => (VNull, st)
      end
  | None => (VNull, st)
  end.

(** Modelled from the spec: [usersService.updatePassword(id, password)]
    stores the hash of the new password. *)
Definition service_updatePassword (id password : jsval)
    (st : gmap string User) : jsval * gmap string User :=
  match as_string id, as_string password with
  | Some i, Some p =>
      match st !! i with
      | Some u =>
          (VBool true, <[i := mkUser (user_name u) (user_email u) (hashPassword p)]> st)
      | None => (VNull, st)
      end
  | _, _ => (VNull, st)
  end.

(** Modelled from the spec: [passwordMatched(password, hashedPassword)],
    the verification of a credential, as a function that returns its
    verdict. *)
Definition util_passwordMatched (password hashed : jsval) : jsval :=
  match as_string password, as_string hashed with
  | Some p, Some h => VBool (passwordMatched p h)
  | _, _ => VBool false
  end.

(** Modelled from the spec: the collaborators of the controller over the
    in-memory store, that is the service, the password utility, and a
    [response] that accepts every payload. *)
Definition service (c : call) (st : gmap string User) : reply * gmap string User :=
  match c with
  | GetUsers => (Returned (service_getUsers st), st)
  | GetUser id => (Returned (service_getUser id st), st)
  | GetUserByEmail email => (Returned (service_getUserByEmail email st), st)
  | CreateUser name email password =>
      let '(v, st') := service_createUser name email password st in (Returned v, st')
  | UpdateUser id name email =>
      let '(v, st') := service_updateUser id name email st in (Returned v, st')
  | DeleteUser id =>
      let '(v, st') := service_deleteUser id st in (Returned v, st')
  | UpdatePassword id password =>
      let '(v, st') := service_updatePassword id password st in (Returned v, st')
  | PasswordMatched password hashed =>
      (Returned (util_passwordMatched password hashed), st)
  | ResJson _ _ => (Returned VUndefined, st)
  end.

(** Email uniqueness: two stored users with the same email are the same
    user. *)
Definition unique_emails (st : gmap string User) : Prop :=
  forall i j u v,
    st !! i = Some u -> st !! j = Some v -> user_email u = user_email v -> i = j.

(** The store after a sequence of requests. *)
Fixpoint serve (requests : list (handler * Request)) (st : gmap string User)
  : gmap string User :=
  match requests with
  | [] => st
  | (h, request) :: rest => serve rest (world_of (run service (handle h request) st))
  end.

End Service.

(** * A worked store *)

(** A stand-in password utility and identifier source for the examples. *)
Definition demo_hash (password : string) : string := "hash:" +:+ password.

Definition demo_matched (password hashed : string) : bool :=
  bool_decide (hashed = demo_hash password).

Definition demo_new_id (st : gmap string User) : string :=
  foldr (fun i acc => i +:+ acc) "u" (map_to_list st).*1.

Definition demo_service : call -> gmap string User -> reply * gmap string User :=
  service demo_hash demo_matched demo_new_id.

Definition alice : User := mkUser "alice" "alice@example.com" (demo_hash "wonderland").
Definition bob : User := mkUser "bob" "bob@example.com" (demo_hash "builder").

Definition demo_store : gmap string User := <["1" := alice]> (<["2" := bob]> ∅).

(** The store once alice's password is ["rabbit"]. *)
Definition demo_store_rabbit : gmap string User :=
  <["1" := mkUser "alice" "alice@example.com" (demo_hash "rabbit")]> demo_store.

Definition with_id (id : string) : jsval := VObj [("id", VStr id)].

Definition password_change (old new confirm : jsval) : jsval :=
  VObj [("password_old", old); ("password_new", new);
        ("password_new_confirm", confirm)].

Definition registration (name email password confirm : string) : jsval :=
  VObj [("name", VStr name); ("email", VStr email);
        ("password", VStr password); ("password_confirm", VStr confirm)].

Arguments with_id : simpl never.
Arguments password_change : simpl never.
Arguments registration : simpl never.

(** A users service like [demo_service], except that its lookup by email
    answers [undefined] when it finds no user (as [Array.prototype.find]
    does) where [demo_service] answers [null]. *)
Definition undefined_service (c : call) (st : gmap string User)
  : reply * gmap string User :=
  match c with
  | GetUserByEmail email =>
      (Returned (if strict_eq (service_getUserByEmail email st) VNull
                 then VUndefined
                 else service_getUserByEmail email st), st)
  | _ => demo_service c st
  end.

(** Collaborators like [demo_service], except that [passwordMatched] is an
    [async] function: the call returns a promise, an object, whatever the
    comparison will say. *)
Definition promise_service (c : call) (st : gmap string User)
  : reply * gmap string User :=
  match c with
  | PasswordMatched _ _ => (Returned (VObj []), st)
  | _ => demo_service c st
  end.

(** A promise that is already fulfilled with [result], as the object it
    is for the caller that does not await it.  The two fields stand for the
    internal slots of the promise; no code can read them as properties. *)
Definition fulfilled (result : jsval) : jsval :=
  VObj [("[[PromiseState]]", VStr "fulfilled"); ("[[PromiseResult]]", result)].

Arguments fulfilled : simpl never.

(** Collaborators like [demo_service], except that [passwordMatched] is
    declared [async]: it comes to the same verdict as in [demo_service] and
    returns it in a promise. *)
Definition async_password_service (c : call) (st : gmap string User)
  : reply * gmap string User :=
  match c with
  | PasswordMatched password hashed =>
      (Returned (fulfilled (util_passwordMatched demo_matched password hashed)), st)
  | _ => demo_service c st
  end.

(** Collaborators like [demo_service], except that sending a response
    throws. *)
Definition closed_socket_service (c : call) (st : gmap string User)
  : reply * gmap string User :=
  match c with
  | ResJson _ _ => (Raised (Thrown (VStr "socket closed")), st)
  | _ => demo_service c st
  end.

(** * Properties of the controller *)

(** ** Reading the request *)

Lemma truthy_not_nullish (v : jsval) : truthy v = true -> nullish v = false.
Proof. by destruct v. Qed.

Lemma prop_ok (base : jsval) (key : string) :
  nullish base = false -> prop base key = Ret (field base key).
Proof. intros H. unfold prop, get_prop. by rewrite H. Qed.

Lemma prop_nullish (base : jsval) (key : string) :
  nullish base = true -> prop base key = Throw (TypeError base key).
Proof. intros H. unfold prop, get_prop. by rewrite H. Qed.

(** Rewrites the reads of a request whose [params] and [body] are there. *)
Ltac read_request :=
  repeat match goal with
  | H : nullish ?b = false |- context [prop ?b ?k] => rewrite (prop_ok b k H)
  end.

(** Runs one collaborator call whose reply is among the hypotheses. *)
Ltac answer :=
  match goal with
  | H : ?env ?c ?w = (_, _) |- context [?env ?c ?w] => rewrite H
  end.

(** Decides one test of the handler from the hypotheses. *)
Ltac decide_test :=
  match goal with
  | H : truthy ?v = _ |- context [truthy ?v] => rewrite H
  | H : strict_neq ?a ?b = _ |- context [strict_neq ?a ?b] => rewrite H
  end.

(** Splits on the next thing a handler depends on: whether a base has
    properties, what a collaborator replies, how a test turns out. *)
Ltac branch :=
  match goal with
  | |- context [prop ?b ?k] =>
      let H := fresh "Hbase" in
      destruct (nullish b) eqn:H;
      [rewrite (prop_nullish b k H) | rewrite (prop_ok b k H)]
  | |- context [?env ?c ?w] =>
      match type of (env c w) with
      | (reply * _)%type => destruct (env c w) as [[?|?] ?] eqn:?
      end
  | |- context [if negb ?b then _ else _] => destruct b eqn:?
  | |- context [if ?b then _ else _] => destruct b eqn:?
  end.

(** Splits on what the in-memory service looks at. *)
Ltac store_case :=
  match goal with
  | |- context [match as_string ?v with _ => _ end] =>
      destruct (as_string v) eqn:?
  | |- context [match ?st !! ?i with _ => _ end] =>
      destruct (st !! i) eqn:?
  end.

(** Follows a handler along the path the hypotheses describe. *)
Ltac follow :=
  repeat first [ progress read_request | answer | decide_test | progress cbn ].

Section Controller.

Context {W : Type} (env : call -> W -> reply * W).

(** C4.  A [createUser] request whose [password] and [password_confirm]
    differ ([!==]) is answered with [INVALID_PASSWORD]: the error goes to
    [next], the trace is empty (neither the email lookup nor the creation,
    nor any other collaborator, is called) and the world of the service is
    the one the handler started in, so no user is created.  The request has
    a body to read the two fields from. *)
Theorem createUser_password_mismatch (request : Request) (w : W) :
  nullish (body request) = false ->
  strict_neq (field (body request) "password")
             (field (body request) "password_confirm") = true ->
  run env (createUser request) w =
    (Normal (Forwarded (errorResponder INVALID_PASSWORD
                          "Failed to create user, password is not same")),
     w, []).
Proof.
  intros Hbody Hneq. unfold createUser. read_request. cbn.
  rewrite Hneq. reflexivity.
Qed.

(** C5.  [updatePassword] checks in this order and leaves at the first
    check that fails: new password and confirmation differ
    ([INVALID_PASSWORD], before any collaborator is called, whatever the
    identifier and the service are); the user is unknown
    ([UNPROCESSABLE_ENTITY], after the lookup alone); the old password does
    not match ([INVALID_PASSWORD], after the lookup and the comparison); the
    service reports that it did not update ([SERVER], after the three
    calls).  Each trace lists the calls made, in order. *)
Theorem updatePassword_check_order (request : Request) (w : W) :
  nullish (body request) = false ->
  let password_old := field (body request) "password_old" in
  let password_new := field (body request) "password_new" in
  let password_new_confirm := field (body request) "password_new_confirm" in
  let id := field (params request) "id" in
  (strict_neq password_new password_new_confirm = true ->
   run env (updatePassword request) w =
     (Normal (Forwarded (errorResponder INVALID_PASSWORD
                "Failed to update password, new password is not same")),
      w, []))
  /\
  (strict_neq password_new password_new_confirm = false ->
   nullish (params request) = false ->
   forall user w1, env (GetUser id) w = (Returned user, w1) ->
   (truthy user = false ->
    run env (updatePassword request) w =
      (Normal (Forwarded (errorResponder UNPROCESSABLE_ENTITY "Unknown user")),
       w1, [(GetUser id, Returned user)]))
   /\
   (truthy user = true ->
    let check := PasswordMatched password_old (field user "password") in
    forall matched w2, env check w1 = (Returned matched, w2) ->
    (truthy matched = false ->
     run env (updatePassword request) w =
       (Normal (Forwarded (errorResponder INVALID_PASSWORD
                  "Failed to update password, wrong password")),
        w2, [(GetUser id, Returned user); (check, Returned matched)]))
    /\
    (truthy matched = true ->
     forall success w3,
     env (UpdatePassword id password_new) w2 = (Returned success, w3) ->
     truthy success = false ->
     run env (updatePassword request) w =
       (Normal (Forwarded (errorResponder SERVER
                  "password is not updated, Something is wrong")),
        w3, [(GetUser id, Returned user); (check, Returned matched);
             (UpdatePassword id password_new, Returned success)])))).
Proof.
  intros Hbody. cbv zeta. split.
  - intros Hneq. unfold updatePassword. by follow.
  - intros Heq Hparams user w1 Hget. split.
    + intros Huser. unfold updatePassword. by follow.
    + intros Huser matched w2 Hcheck.
      pose proof (truthy_not_nullish _ Huser) as Hobj. split.
      * intros Hmatched. unfold updatePassword. by follow.
      * intros Hmatched success w3 Hupd Hsuccess.
        unfold updatePassword. by follow.
Qed.


(** C6.  An [updatePassword] request that passes every check, whose update
    the service reports as done and whose response is sent, is answered
    with status 200 and exactly the object
    [{id, password_new, message}]: the identifier of the request, the new
    password as the request gave it, in plain text, and the fixed message. *)
Theorem updatePassword_success_payload
    (request : Request) (w w1 w2 w3 w4 : W) (user matched success sent : jsval) :
  let password_old := field (body request) "password_old" in
  let password_new := field (body request) "password_new" in
  let password_new_confirm := field (body request) "password_new_confirm" in
  let id := field (params request) "id" in
  let payload :=
    VObj [("id", id); ("password_new", password_new);
          ("message", VStr "password was succesfully updated")] in
  nullish (body request) = false ->
  nullish (params request) = false ->
  strict_neq password_new password_new_confirm = false ->
  env (GetUser id) w = (Returned user, w1) ->
  truthy user = true ->
  env (PasswordMatched password_old (field user "password")) w1
    = (Returned matched, w2) ->
  truthy matched = true ->
  env (UpdatePassword id password_new) w2 = (Returned success, w3) ->
  truthy success = true ->
  env (ResJson 200 payload) w3 = (Returned sent, w4) ->
  run env (updatePassword request) w =
    (Normal (Responded 200 payload), w4,
     [(GetUser id, Returned user);
      (PasswordMatched password_old (field user "password"), Returned matched);
      (UpdatePassword id password_new, Returned success);
      (ResJson 200 payload, Returned sent)])
  /\ field payload "password_new" = field (body request) "password_new".
Proof.
  cbv zeta. intros Hbody Hparams Heq Hget Huser Hcheck Hmatched Hupd Hsuccess Hsend.
  pose proof (truthy_not_nullish _ Huser) as Hobj.
  split; [|done]. unfold updatePassword. by follow.
Qed.

(** C7.  A [createUser] request that passes the checks (matching passwords,
    the email lookup answers [null]), whose creation the service reports as
    done and whose response is sent, is answered with status 200 and exactly
    the object [{name, email}] of the request: the payload has no
    [password] and no [password_confirm] field. *)
Theorem createUser_success_payload
    (request : Request) (w w1 w2 w3 : W) (success sent : jsval) :
  let name := field (body request) "name" in
  let email := field (body request) "email" in
  let password := field (body request) "password" in
  let password_confirm := field (body request) "password_confirm" in
  let payload := VObj [("name", name); ("email", email)] in
  nullish (body request) = false ->
  strict_neq password password_confirm = false ->
  env (GetUserByEmail email) w = (Returned VNull, w1) ->
  env (CreateUser name email password) w1 = (Returned success, w2) ->
  truthy success = true ->
  env (ResJson 200 payload) w2 = (Returned sent, w3) ->
  run env (createUser request) w =
    (Normal (Responded 200 payload), w3,
     [(GetUserByEmail email, Returned VNull);
      (CreateUser name email password, Returned success);
      (ResJson 200 payload, Returned sent)])
  /\ get_prop payload "password" = inr VUndefined
  /\ get_prop payload "password_confirm" = inr VUndefined.
Proof.
  cbv zeta. intros Hbody Heq Hlookup Hcreate Hsuccess Hsend.
  split; [|done]. unfold createUser. by follow.
Qed.

(** C10.  For an identifier the service finds a user for, [getUser] answers
    with status 200 and, as payload, the very value the service returned:
    nothing is taken out of it, so the [password] field of the payload is
    the [password] field of the service's user. *)
Theorem getUser_returns_service_user
    (request : Request) (w w1 w2 : W) (user sent : jsval) :
  let id := field (params request) "id" in
  nullish (params request) = false ->
  env (GetUser id) w = (Returned user, w1) ->
  truthy user = true ->
  env (ResJson 200 user) w1 = (Returned sent, w2) ->
  run env (getUser request) w =
    (Normal (Responded 200 user), w2,
     [(GetUser id, Returned user); (ResJson 200 user, Returned sent)])
  /\ forall payload, outcome_of (run env (getUser request) w)
                       = Normal (Responded 200 payload) ->
       field payload "password" = field user "password".
Proof.
  cbv zeta. intros Hparams Hget Huser Hsend.
  assert (Hrun : run env (getUser request) w =
    (Normal (Responded 200 user), w2,
     [(GetUser (field (params request) "id"), Returned user);
      (ResJson 200 user, Returned sent)])).
  { unfold getUser. by follow. }
  split; [done|]. rewrite Hrun. intros payload [= <-]. done.
Qed.

(** C3, as the code has it.  For a [createUser] request with matching
    passwords, the handler itself raises [EMAIL_ALREADY_TAKEN], right after
    the lookup and without a creation call, if and only if the lookup by
    email returned a value that is not [null] ([user !== null]); when the
    lookup returned [null] the next call is the creation call, with the
    name, email and password of the request.  A creation call is made
    exactly when the lookup returned [null]. *)
Theorem createUser_email_taken_iff_lookup_not_null
    (request : Request) (w w1 : W) (user : jsval) :
  let name := field (body request) "name" in
  let email := field (body request) "email" in
  let password := field (body request) "password" in
  let password_confirm := field (body request) "password_confirm" in
  nullish (body request) = false ->
  strict_neq password password_confirm = false ->
  env (GetUserByEmail email) w = (Returned user, w1) ->
  let result := run env (createUser request) w in
  (result =
     (Normal (Forwarded (errorResponder EMAIL_ALREADY_TAKEN
                "Failed to create user, email is already taken")),
      w1, [(GetUserByEmail email, Returned user)])
   <-> strict_neq user VNull = true)
  /\
  (strict_neq user VNull = false ->
   exists rest,
     trace_of result =
       (GetUserByEmail email, Returned user)
       :: (CreateUser name email password,
           (env (CreateUser name email password) w1).1)
       :: rest)
  /\ existsb is_CreateUser (calls (trace_of result))
     = negb (strict_neq user VNull).
Proof.
  cbv zeta. intros Hbody Heq Hlookup.
  destruct (strict_neq user VNull) eqn:Hnull.
  - assert (Hrun : run env (createUser request) w =
      (Normal (Forwarded (errorResponder EMAIL_ALREADY_TAKEN
                 "Failed to create user, email is already taken")),
       w1, [(GetUserByEmail (field (body request) "email"), Returned user)])).
    { unfold createUser. by follow. }
    rewrite Hrun. by repeat split.
  - unfold createUser. follow.
    destruct (env (CreateUser _ _ _) w1) as [created w2].
    destruct (run env _ w2) as [[o w3] t]. cbn.
    split; [split; [by intros [=] | done]|]. eauto.
Qed.

(** C9.  Whatever the request and whatever the collaborators reply (a
    value or a thrown error, at every call), each of the six handlers ends
    normally, never with an exception of its own, in one of two ways.
    Either it sent exactly one response, with status 200, and no
    collaborator threw; or it sent no response and passed an error to
    [next]: the one error a collaborator threw, as it was thrown, or, when
    no collaborator threw, an error the handler raised itself. *)
Theorem handlers_respond_or_forward (h : handler) (request : Request) (w : W) :
  let result := run env (handle h request) w in
  (exists payload,
     outcome_of result = Normal (Responded 200 payload)
     /\ responses (trace_of result) = [(200, payload)]
     /\ failures (trace_of result) = [])
  \/
  (exists e,
     outcome_of result = Normal (Forwarded e)
     /\ responses (trace_of result) = []
     /\ (failures (trace_of result) = [] /\ own_error e = true
         \/ failures (trace_of result) = [e])).
Proof.
  cbv zeta.
  destruct h; cbn [handle];
    [unfold getUsers | unfold getUser | unfold createUser
    | unfold updateUser | unfold deleteUser | unfold updatePassword];
    cbn; repeat (branch; cbn); eauto 12.
Qed.

(** ** Further properties of the handlers *)

(** [getUsers] answers with what the service listed, as it is. *)
Theorem getUsers_lists_service_users
    (request : Request) (w w1 w2 : W) (users sent : jsval) :
  env GetUsers w = (Returned users, w1) ->
  env (ResJson 200 users) w1 = (Returned sent, w2) ->
  run env (getUsers request) w =
    (Normal (Responded 200 users), w2,
     [(GetUsers, Returned users); (ResJson 200 users, Returned sent)]).
Proof. intros Hlist Hsend. unfold getUsers. by follow. Qed.

(** [getUser] for an identifier the service finds no user for (the lookup
    returns a falsy value) is answered with [UNPROCESSABLE_ENTITY]
    "Unknown user", after the lookup alone. *)
Theorem getUser_unknown_user (request : Request) (w w1 : W) (user : jsval) :
  let id := field (params request) "id" in
  nullish (params request) = false ->
  env (GetUser id) w = (Returned user, w1) ->
  truthy user = false ->
  run env (getUser request) w =
    (Normal (Forwarded (errorResponder UNPROCESSABLE_ENTITY "Unknown user")),
     w1, [(GetUser id, Returned user)]).
Proof. cbv zeta. intros Hparams Hget Huser. unfold getUser. by follow. Qed.

(** [updateUser] passes the identifier, name and email of the request to
    the service without a lookup by email; a reported success is answered
    with [{id}], a reported failure with [UNPROCESSABLE_ENTITY]. *)
Theorem updateUser_delegates (request : Request) (w w1 : W) (success : jsval) :
  let id := field (params request) "id" in
  let name := field (body request) "name" in
  let email := field (body request) "email" in
  nullish (params request) = false ->
  nullish (body request) = false ->
  env (UpdateUser id name email) w = (Returned success, w1) ->
  (truthy success = false ->
   run env (updateUser request) w =
     (Normal (Forwarded (errorResponder UNPROCESSABLE_ENTITY
                           "Failed to update user")),
      w1, [(UpdateUser id name email, Returned success)]))
  /\
  (truthy success = true ->
   forall sent w2, env (ResJson 200 (VObj [("id", id)])) w1 = (Returned sent, w2) ->
   run env (updateUser request) w =
     (Normal (Responded 200 (VObj [("id", id)])), w2,
      [(UpdateUser id name email, Returned success);
       (ResJson 200 (VObj [("id", id)]), Returned sent)])).
Proof.
  cbv zeta. intros Hparams Hbody Hupdate. split.
  - intros Hsuccess. unfold updateUser. by follow.
  - intros Hsuccess sent w2 Hsend. unfold updateUser. by follow.
Qed.

(** [deleteUser] passes the identifier to the service; a reported success
    is answered with [{id}], a reported failure with
    [UNPROCESSABLE_ENTITY]. *)
Theorem deleteUser_delegates (request : Request) (w w1 : W) (success : jsval) :
  let id := field (params request) "id" in
  nullish (params request) = false ->
  env (DeleteUser id) w = (Returned success, w1) ->
  (truthy success = false ->
   run env (deleteUser request) w =
     (Normal (Forwarded (errorResponder UNPROCESSABLE_ENTITY
                           "Failed to delete user")),
      w1, [(DeleteUser id, Returned success)]))
  /\
  (truthy success = true ->
   forall sent w2, env (ResJson 200 (VObj [("id", id)])) w1 = (Returned sent, w2) ->
   run env (deleteUser request) w =
     (Normal (Responded 200 (VObj [("id", id)])), w2,
      [(DeleteUser id, Returned success);
       (ResJson 200 (VObj [("id", id)]), Returned sent)])).
Proof.
  cbv zeta. intros Hparams Hdelete. split.
  - intros Hsuccess. unfold deleteUser. by follow.
  - intros Hsuccess sent w2 Hsend. unfold deleteUser. by follow.
Qed.

(** [passwordMatched] is called without [await], so the handler tests the
    value the call itself returns.  When that value is an object (a
    promise is one, whatever it settles to), the test [!isPasswordMatched]
    is false and the handler goes on to [usersService.updatePassword]. *)
Theorem updatePassword_object_passes_check
    (request : Request) (w w1 w2 : W) (user : jsval)
    (promise : list (string * jsval)) :
  let password_old := field (body request) "password_old" in
  let password_new := field (body request) "password_new" in
  let password_new_confirm := field (body request) "password_new_confirm" in
  let id := field (params request) "id" in
  nullish (body request) = false ->
  nullish (params request) = false ->
  strict_neq password_new password_new_confirm = false ->
  env (GetUser id) w = (Returned user, w1) ->
  truthy user = true ->
  env (PasswordMatched password_old (field user "password")) w1
    = (Returned (VObj promise), w2) ->
  exists rest,
    trace_of (run env (updatePassword request) w) =
      (GetUser id, Returned user)
      :: (PasswordMatched password_old (field user "password"),
          Returned (VObj promise))
      :: (UpdatePassword id password_new,
          (env (UpdatePassword id password_new) w2).1)
      :: rest.
Proof.
  cbv zeta. intros Hbody Hparams Heq Hget Huser Hcheck.
  pose proof (truthy_not_nullish _ Huser) as Hobj.
  unfold updatePassword. follow.
  destruct (env (UpdatePassword _ _) w2) as [updated w3].
  destruct (run env _ w3) as [[o w4] t]. cbn. eauto.
Qed.

(** A request without a body is answered with the [TypeError] of the first
    read, before any collaborator is called. *)
Theorem createUser_without_body (request : Request) (w : W) :
  nullish (body request) = true ->
  run env (createUser request) w =
    (Normal (Forwarded (TypeError (body request) "name")), w, []).
Proof.
  intros Hbody. unfold createUser.
  by rewrite (prop_nullish _ "name" Hbody).
Qed.

End Controller.

(** * What the handlers call, and when *)

Lemma strict_neq_null (v : jsval) : strict_neq v VNull = false -> v = VNull.
Proof. by destruct v. Qed.

(** Unfolds a handler and splits on everything it depends on. *)
Ltac all_paths h :=
  destruct h; cbn [handle];
  [unfold getUsers | unfold getUser | unfold createUser
  | unfold updateUser | unfold deleteUser | unfold updatePassword];
  cbn; repeat (branch; cbn).

(** A truthy value has properties. *)
Ltac no_nullish_user :=
  match goal with
  | H : nullish ?v = true, H' : truthy ?v = true |- _ =>
      by rewrite (truthy_not_nullish v H') in H
  end.

Section Footprint.

Context {W : Type} (env : call -> W -> reply * W).

(** Whatever the request and the collaborators' replies, a handler calls
    only the collaborators named in its own text: [getUsers] only
    [usersService.getUsers], [getUser] only [usersService.getUser],
    [createUser] only the lookup by email and the creation, [updateUser]
    only [usersService.updateUser] (never a lookup), [deleteUser] only
    [usersService.deleteUser], [updatePassword] only the lookup, the
    comparison and the update; and every response it sends has status
    200. *)
Theorem handlers_call_footprint (h : handler) (request : Request) (w : W) :
  forallb (may_call h) (calls (trace_of (run env (handle h request) w))) = true.
Proof. all_paths h; reflexivity. Qed.

(** No retries: within one request no collaborator function is called
    twice, and at most four calls are made in all. *)
Theorem handlers_call_each_collaborator_once
    (h : handler) (request : Request) (w : W) :
  let made := calls (trace_of (run env (handle h request) w)) in
  NoDup (call_kind <$> made) /\ (length made <= 4)%nat.
Proof.
  cbv zeta. all_paths h; (split; [|cbn; lia]);
    cbn; apply (bool_decide_unpack _); reflexivity.
Qed.

(** Nothing follows a response or a failure: the call that sends the
    response, and a call in which a collaborator throws, is the last call
    of the request. *)
Theorem handlers_stop_after_response_or_failure
    (h : handler) (request : Request) (w : W) :
  let t := trace_of (run env (handle h request) w) in
  existsb is_response (calls (removelast t)) = false
  /\ failures (removelast t) = [].
Proof. cbv zeta. all_paths h; by split. Qed.

(** When no collaborator threw and the handler still passed an error to
    [next], the error is one of those the handler raises in its own text,
    with the kind and message written there. *)
Theorem handlers_raise_only_their_errors
    (h : handler) (request : Request) (w : W) (e : error) :
  let result := run env (handle h request) w in
  failures (trace_of result) = [] ->
  outcome_of result = Normal (Forwarded e) ->
  In e (raises h request).
Proof.
  cbv zeta. all_paths h; intros Hfailures Hforwarded;
    try discriminate; try no_nullish_user;
    injection Hforwarded as <-; cbn; auto 10.
Qed.

(** A handler whose first read finds no [request.params] (or no
    [request.body]) passes the [TypeError] of that read to [next] before it
    calls anything. *)
Theorem handlers_without_request_part
    (h : handler) (request : Request) (w : W) (base : jsval) (key : string) :
  first_read h request = Some (base, key) ->
  nullish base = true ->
  run env (handle h request) w =
    (Normal (Forwarded (TypeError base key)), w, []).
Proof.
  intros Hread Hbase.
  destruct h; cbn in Hread; simplify_eq; cbn [handle];
    [unfold getUser | unfold createUser | unfold updateUser
    | unfold deleteUser | unfold updatePassword];
    by rewrite (prop_nullish _ _ Hbase).
Qed.

(** A response is sent only on the service's word: when one of the four
    changing handlers answers with a response, the trace holds its one
    request for the change, made with the arguments read from the request,
    and the service returned a truthy value to it. *)
Theorem handlers_respond_only_after_success
    (h : handler) (request : Request) (w : W) (c : call)
    (status : Z) (payload : jsval) :
  let result := run env (handle h request) w in
  mutation h request = Some c ->
  outcome_of result = Normal (Responded status payload) ->
  exists success, In (c, Returned success) (trace_of result)
                  /\ truthy success = true.
Proof.
  cbv zeta. intros Hmutation.
  destruct h; cbn in Hmutation; simplify_eq; cbn [handle];
    [unfold createUser | unfold updateUser | unfold deleteUser
    | unfold updatePassword];
    cbn; repeat (branch; cbn); intros Hresponded; try discriminate;
    eexists; (split; [|eassumption]); cbn; auto 10.
Qed.

(** [createUser] asks the service to create a user only after both checks:
    every creation call in the trace carries the name, email and password
    of the request, the password and its confirmation were strictly equal,
    and the lookup by that email had returned [null]. *)
Theorem createUser_creates_only_after_checks
    (request : Request) (w : W) (c : call) (r : reply) :
  let name := field (body request) "name" in
  let email := field (body request) "email" in
  let password := field (body request) "password" in
  let password_confirm := field (body request) "password_confirm" in
  let t := trace_of (run env (createUser request) w) in
  In (c, r) t ->
  is_CreateUser c = true ->
  c = CreateUser name email password
  /\ strict_neq password password_confirm = false
  /\ In (GetUserByEmail email, Returned VNull) t.
Proof.
  cbv zeta. unfold createUser. cbn. repeat (branch; cbn);
    intros Hin Hcreate;
    repeat match goal with
    | H : _ \/ _ |- _ => destruct H
    | H : False |- _ => destruct H
    | H : (_, _) = (_, _) |- _ => injection H as <- <-
    end; try discriminate;
    repeat match goal with
    | H : strict_neq ?v VNull = false |- _ =>
        apply strict_neq_null in H; subst v
    end; auto 10.
Qed.

(** [updatePassword] asks the service to store a new password only after
    its three checks: every update call in the trace carries the
    identifier and the new password of the request, the new password and
    its confirmation were strictly equal, the lookup had returned a truthy
    user, and the comparison of the old password with that user's
    [password] had returned a truthy value. *)
Theorem updatePassword_updates_only_after_checks
    (request : Request) (w : W) (c : call) (r : reply) :
  let password_old := field (body request) "password_old" in
  let password_new := field (body request) "password_new" in
  let password_new_confirm := field (body request) "password_new_confirm" in
  let id := field (params request) "id" in
  let t := trace_of (run env (updatePassword request) w) in
  In (c, r) t ->
  is_UpdatePassword c = true ->
  c = UpdatePassword id password_new
  /\ strict_neq password_new password_new_confirm = false
  /\ exists user matched,
       In (GetUser id, Returned user) t /\ truthy user = true
       /\ In (PasswordMatched password_old (field user "password"),
              Returned matched) t
       /\ truthy matched = true.
Proof.
  cbv zeta. unfold updatePassword. cbn. repeat (branch; cbn);
    intros Hin Hupdate;
    repeat match goal with
    | H : _ \/ _ |- _ => destruct H
    | H : False |- _ => destruct H
    | H : (_, _) = (_, _) |- _ => injection H as <- <-
    end; try discriminate;
    (split; [done|]); (split; [done|]);
    eexists _, _; cbn; eauto 10.
Qed.

(** The mismatch check of [createUser] compares the two fields as they
    are: a body with neither [password] nor [password_confirm] passes it
    ([undefined === undefined]), and the handler goes on to look up the
    email. *)
Theorem createUser_missing_passwords_pass (request : Request) (w : W) :
  nullish (body request) = false ->
  field (body request) "password" = VUndefined ->
  field (body request) "password_confirm" = VUndefined ->
  exists rest,
    trace_of (run env (createUser request) w) =
      (GetUserByEmail (field (body request) "email"),
       (env (GetUserByEmail (field (body request) "email")) w).1) :: rest.
Proof.
  intros Hbody Hpassword Hconfirm. unfold createUser. follow.
  rewrite Hpassword, Hconfirm. cbn.
  destruct (env (GetUserByEmail _) w) as [looked w1].
  destruct (run env _ w1) as [[o w2] t]. cbn. eauto.
Qed.

(** When the user is created and sending the response then throws, the
    error goes to [next]: the client is told of a failure although the
    creation call was made and reported success. *)
Theorem createUser_response_failure
    (request : Request) (w w1 w2 w3 : W) (success : jsval) (e : error) :
  let name := field (body request) "name" in
  let email := field (body request) "email" in
  let password := field (body request) "password" in
  let password_confirm := field (body request) "password_confirm" in
  let payload := VObj [("name", name); ("email", email)] in
  nullish (body request) = false ->
  strict_neq password password_confirm = false ->
  env (GetUserByEmail email) w = (Returned VNull, w1) ->
  env (CreateUser name email password) w1 = (Returned success, w2) ->
  truthy success = true ->
  env (ResJson 200 payload) w2 = (Raised e, w3) ->
  run env (createUser request) w =
    (Normal (Forwarded e), w3,
     [(GetUserByEmail email, Returned VNull);
      (CreateUser name email password, Returned success);
      (ResJson 200 payload, Raised e)]).
Proof.
  cbv zeta. intros Hbody Heq Hlookup Hcreate Hsuccess Hsend.
  unfold createUser. by follow.
Qed.

(** [updatePassword] reads the identifier only after the new password and
    its confirmation were found equal: with a body whose two fields agree
    and no [request.params], the [TypeError] of reading [params.id] goes to
    [next] and nothing is called; [updateUser] reads [params.id] first and
    the body second, so with [params] and no body it is the [TypeError] of
    reading [body.name] that goes to [next], again before any call. *)
Theorem handlers_without_second_request_part (request : Request) (w : W) :
  (nullish (body request) = false ->
   strict_neq (field (body request) "password_new")
     (field (body request) "password_new_confirm") = false ->
   nullish (params request) = true ->
   run env (updatePassword request) w =
     (Normal (Forwarded (TypeError (params request) "id")), w, []))
  /\
  (nullish (params request) = false ->
   nullish (body request) = true ->
   run env (updateUser request) w =
     (Normal (Forwarded (TypeError (body request) "name")), w, [])).
Proof.
  split.
  - intros Hbody Heq Hparams. unfold updatePassword. follow.
    by rewrite (prop_nullish _ _ Hparams).
  - intros Hparams Hbody. unfold updateUser. follow.
    by rewrite (prop_nullish _ _ Hbody).
Qed.

End Footprint.

(** * Properties of the controller over the in-memory service *)

Section ServiceFacts.

Variable hashPassword : string -> string.
Variable passwordMatched : string -> string -> bool.
Variable new_id : gmap string User -> string.

Local Abbreviation svc := (service hashPassword passwordMatched new_id).

(** ** Lookups by email *)

Lemma find_by_email_Some (email : string) (st : gmap string User) i u :
  find_by_email email st = Some (i, u) ->
  st !! i = Some u /\ user_email u = email.
Proof.
  unfold find_by_email. intros Hhead.
  apply head_Some_elem_of, list_elem_of_filter in Hhead as [Hemail Hin].
  by apply elem_of_map_to_list in Hin.
Qed.

Lemma find_by_email_None (email : string) (st : gmap string User) i u :
  find_by_email email st = None ->
  st !! i = Some u -> user_email u <> email.
Proof.
  unfold find_by_email. intros Hhead Hlookup Hemail.
  apply head_None in Hhead.
  eapply (filter_nil_not_elem_of _ _ (i, u)) in Hhead; [|done].
  by apply Hhead, elem_of_map_to_list.
Qed.

(** ** Email uniqueness under the mutations of the store *)

Lemma unique_emails_delete (st : gmap string User) i :
  unique_emails st -> unique_emails (delete i st).
Proof.
  intros Hunique j k u v Hj Hk.
  apply lookup_delete_Some in Hj as [_ Hj].
  apply lookup_delete_Some in Hk as [_ Hk]. eauto.
Qed.

Lemma unique_emails_insert_same_email (st : gmap string User) i u u' :
  st !! i = Some u -> user_email u' = user_email u ->
  unique_emails st -> unique_emails (<[i := u']> st).
Proof.
  intros Hi Hsame Hunique j k v v' Hj Hk Hemail.
  apply lookup_insert_Some in Hj as [[<- <-]|[? Hj]];
    apply lookup_insert_Some in Hk as [[<- <-]|[? Hk]]; try done.
  - rewrite Hsame in Hemail. eauto.
  - rewrite Hsame in Hemail. eauto.
  - eauto.
Qed.

Lemma unique_emails_insert_new_email (st : gmap string User) i u :
  (forall j v, st !! j = Some v -> user_email v <> user_email u) ->
  unique_emails st -> unique_emails (<[i := u]> st).
Proof.
  intros Hnew Hunique j k v v' Hj Hk Hemail.
  apply lookup_insert_Some in Hj as [[<- <-]|[? Hj]];
    apply lookup_insert_Some in Hk as [[<- <-]|[? Hk]]; try done.
  - by destruct (Hnew _ _ Hk).
  - by destruct (Hnew _ _ Hj).
  - eauto.
Qed.

(** ** The store after each handler *)

Lemma getUsers_world (request : Request) (st : gmap string User) :
  world_of (run svc (getUsers request) st) = st.
Proof. reflexivity. Qed.

Lemma getUser_world (request : Request) (st : gmap string User) :
  world_of (run svc (getUser request) st) = st.
Proof.
  unfold getUser. branch; cbn; [done|]. by branch.
Qed.

Lemma deleteUser_world (request : Request) (st : gmap string User) :
  let st' := world_of (run svc (deleteUser request) st) in
  st' = st \/ exists i, st' = delete i st.
Proof.
  cbv zeta. unfold deleteUser. branch; cbn; [by left|].
  unfold service_deleteUser.
  destruct (as_string _) as [i|]; cbn; [|by left].
  destruct (st !! i); cbn; [right; by exists i | by left].
Qed.

(** C8.  Over the in-memory service: when [deleteUser] answers a request
    with status 200, [getUser] for the same request (the same identifier),
    run on the store the deletion left, is answered with
    [UNPROCESSABLE_ENTITY] "Unknown user". *)
Theorem deleteUser_then_getUser (request : Request) (st : gmap string User)
    (payload : jsval) :
  let deleted := run svc (deleteUser request) st in
  outcome_of deleted = Normal (Responded 200 payload) ->
  outcome_of (run svc (getUser request) (world_of deleted)) =
    Normal (Forwarded (errorResponder UNPROCESSABLE_ENTITY "Unknown user")).
Proof.
  cbv zeta. unfold deleteUser, getUser.
  destruct (nullish (params request)) eqn:Hparams.
  { rewrite !(prop_nullish _ _ Hparams). discriminate. }
  rewrite !(prop_ok _ _ Hparams). cbn.
  unfold service_deleteUser, service_getUser.
  destruct (as_string (field (params request) "id")) as [i|] eqn:Hid; cbn;
    [|discriminate].
  destruct (st !! i) as [u|] eqn:Hlookup; cbn; [|discriminate].
  intros _. by rewrite lookup_delete_eq.
Qed.

Lemma updatePassword_world (request : Request) (st : gmap string User) :
  let st' := world_of (run svc (updatePassword request) st) in
  st' = st \/
  exists i u p, st !! i = Some u /\
    st' = <[i := mkUser (user_name u) (user_email u) p]> st.
Proof.
  cbv zeta. unfold updatePassword.
  repeat (branch; cbn; try by left).
  unfold service_updatePassword.
  repeat (store_case; cbn; try by left).
  right. eauto.
Qed.

Lemma updateUser_world (request : Request) (st : gmap string User) :
  let st' := world_of (run svc (updateUser request) st) in
  st' = st \/
  exists i u name email, st !! i = Some u /\
    st' = <[i := mkUser name email (user_password u)]> st.
Proof.
  cbv zeta. unfold updateUser.
  repeat (branch; cbn; try by left).
  unfold service_updateUser.
  repeat (store_case; cbn; try by left).
  right. eauto 10.
Qed.

Lemma createUser_world (request : Request) (st : gmap string User) :
  let st' := world_of (run svc (createUser request) st) in
  st' = st \/
  exists i u, find_by_email (user_email u) st = None /\ st' = <[i := u]> st.
Proof.
  cbv zeta. unfold createUser.
  repeat (branch; cbn; try by left).
  unfold service_createUser.
  repeat (store_case; cbn; try by left).
  right. eexists _, _. split; [|done]. cbn.
  match goal with H : strict_neq _ _ = false |- _ => revert H end.
  unfold service_getUserByEmail.
  match goal with H : as_string _ = Some ?e |- context [find_by_email ?e] =>
    rewrite H end.
  by destruct (find_by_email _ st) as [[??]|].
Qed.

(** Every handler but [updateUser] keeps the emails of the store distinct. *)
Lemma handlers_but_updateUser_keep_emails_unique
    (h : handler) (request : Request) (st : gmap string User) :
  h <> HUpdateUser ->
  unique_emails st ->
  unique_emails (world_of (run svc (handle h request) st)).
Proof.
  intros Hh Hunique. destruct h; cbn [handle]; [| | | done | |].
  - by rewrite getUsers_world.
  - by rewrite getUser_world.
  - destruct (createUser_world request st) as [->|(i & u & Hnew & ->)]; [done|].
    apply unique_emails_insert_new_email; [|done].
    intros j v Hj. by eapply find_by_email_None.
  - destruct (deleteUser_world request st) as [->|[i ->]]; [done|].
    by apply unique_emails_delete.
  - destruct (updatePassword_world request st) as [->|(i & u & p & Hi & ->)]; [done|].
    by eapply unique_emails_insert_same_email.
Qed.

(** Over the in-memory service, with any sequence of requests to the five
    handlers other than [updateUser], a store with distinct emails stays
    one. *)
Theorem serve_but_updateUser_keeps_emails_unique
    (requests : list (handler * Request)) (st : gmap string User) :
  Forall (fun hr => hr.1 <> HUpdateUser) requests ->
  unique_emails st ->
  unique_emails (serve hashPassword passwordMatched new_id requests st).
Proof.
  intros Hrequests. revert st.
  induction Hrequests as [|[h request] requests Hh _ IH]; intros st Hunique; [done|].
  cbn. apply IH. by apply handlers_but_updateUser_keep_emails_unique.
Qed.

Lemma registration_fields (name email password confirm : string) :
  let form := registration name email password confirm in
  field form "name" = VStr name
  /\ field form "email" = VStr email
  /\ field form "password" = VStr password
  /\ field form "password_confirm" = VStr confirm.
Proof. done. Qed.

Lemma strict_neq_same_string (s : string) : strict_neq (VStr s) (VStr s) = false.
Proof. unfold strict_neq. cbn. by rewrite bool_decide_eq_true_2. Qed.

(** Over the in-memory service, whose lookup answers [null] when it finds
    no user: a registration with matching passwords is answered with
    [EMAIL_ALREADY_TAKEN] if and only if a stored user has that email. *)
Theorem createUser_email_taken_iff_stored
    (ps : jsval) (name email password : string) (st : gmap string User) :
  outcome_of (run svc (createUser
                         (mkRequest ps (registration name email password password)))
                st)
  = Normal (Forwarded (errorResponder EMAIL_ALREADY_TAKEN
                         "Failed to create user, email is already taken"))
  <-> exists i u, st !! i = Some u /\ user_email u = email.
Proof.
  destruct (registration_fields name email password password)
    as (Hname & Hemail & Hpassword & Hconfirm).
  assert (Hbody : nullish (registration name email password password) = false)
    by done.
  unfold createUser. cbn [body]. follow.
  rewrite Hname, Hemail, Hpassword, Hconfirm, strict_neq_same_string. cbn.
  destruct (find_by_email email st) as [[i u]|] eqn:Hfind; cbn.
  - split; [|done]. intros _. exists i, u. by apply find_by_email_Some.
  - split; [done|]. intros (i & u & Hi & Hu).
    by destruct (find_by_email_None _ _ _ _ Hfind Hi).
Qed.

(** Over the in-memory service: a registration with matching passwords and
    an email no stored user has is answered with [{name, email}], and
    [getUser] for the identifier the new user got then answers with a user
    of that name and email. *)
Theorem createUser_then_getUser
    (ps : jsval) (name email password : string) (st : gmap string User) :
  (forall i u, st !! i = Some u -> user_email u <> email) ->
  let created :=
    run svc (createUser (mkRequest ps (registration name email password password)))
      st in
  outcome_of created =
    Normal (Responded 200 (VObj [("name", VStr name); ("email", VStr email)]))
  /\ outcome_of (run svc (getUser (mkRequest (with_id (new_id st)) VUndefined))
                   (world_of created))
     = Normal (Responded 200
                 (user_json (new_id st)
                    (mkUser name email (hashPassword password)))).
Proof.
  intros Hnew. cbv zeta.
  destruct (registration_fields name email password password)
    as (Hname & Hemail & Hpassword & Hconfirm).
  assert (Hfind : find_by_email email st = None).
  { destruct (find_by_email email st) as [[i u]|] eqn:Hfind; [|done].
    apply find_by_email_Some in Hfind as [Hi Hu]. by destruct (Hnew _ _ Hi). }
  assert (Hbody : nullish (registration name email password password) = false)
    by done.
  assert (Hid : field (with_id (new_id st)) "id" = VStr (new_id st)) by done.
  assert (Hparams : nullish (with_id (new_id st)) = false) by done.
  unfold createUser. cbn [body]. follow.
  rewrite Hname, Hemail, Hpassword, Hconfirm, strict_neq_same_string. cbn.
  rewrite Hfind. cbn.
  split; [done|].
  unfold getUser. cbn [params]. read_request. cbn.
  rewrite Hid. cbn. by rewrite lookup_insert_eq.
Qed.

End ServiceFacts.

(** * The handlers on the worked store *)

Lemma demo_store_unique_emails : unique_emails demo_store.
Proof.
  intros i j u v Hi Hj He. unfold demo_store in *.
  repeat match goal with
  | H : <[_:=_]> _ !! _ = Some _ |- _ =>
      apply lookup_insert_Some in H as [[<- <-]|[? H]]
  | H : ∅ !! _ = Some _ |- _ => by rewrite lookup_empty in H
  end; done.
Qed.

Lemma createUser_password_mismatch_witness :
  run demo_service
    (createUser (mkRequest (VObj [])
                   (registration "carol" "carol@example.com" "pw" "pW")))
    demo_store
  = (Normal (Forwarded (errorResponder INVALID_PASSWORD
                          "Failed to create user, password is not same")),
     demo_store, []).
Proof.
  apply createUser_password_mismatch.
  - reflexivity.
  - reflexivity.
Defined.

Lemma updatePassword_check_order_witness :
  let run_on request := run demo_service (updatePassword request) demo_store in
  outcome_of (run_on (mkRequest (with_id "9")
                        (password_change (VStr "x") (VStr "a") (VStr "b"))))
  = Normal (Forwarded (errorResponder INVALID_PASSWORD
              "Failed to update password, new password is not same"))
  /\ outcome_of (run_on (mkRequest (with_id "9")
                           (password_change (VStr "x") (VStr "a") (VStr "a"))))
     = Normal (Forwarded (errorResponder UNPROCESSABLE_ENTITY "Unknown user"))
  /\ outcome_of (run_on (mkRequest (with_id "1")
                           (password_change (VStr "x") (VStr "a") (VStr "a"))))
     = Normal (Forwarded (errorResponder INVALID_PASSWORD
                 "Failed to update password, wrong password"))
  /\ outcome_of (run_on (mkRequest (with_id "1")
                           (password_change (VStr "wonderland") (VNum 5) (VNum 5))))
     = Normal (Forwarded (errorResponder SERVER
                 "password is not updated, Something is wrong")).
Proof.
  cbv zeta. split; [|split; [|split]].
  - pose proof (updatePassword_check_order demo_service
      (mkRequest (with_id "9") (password_change (VStr "x") (VStr "a") (VStr "b")))
      demo_store eq_refl) as [Hfirst _].
    by rewrite Hfirst.
  - pose proof (updatePassword_check_order demo_service
      (mkRequest (with_id "9") (password_change (VStr "x") (VStr "a") (VStr "a")))
      demo_store eq_refl) as [_ Hrest].
    destruct (Hrest eq_refl eq_refl VNull demo_store eq_refl) as [Hunknown _].
    by rewrite Hunknown.
  - pose proof (updatePassword_check_order demo_service
      (mkRequest (with_id "1") (password_change (VStr "x") (VStr "a") (VStr "a")))
      demo_store eq_refl) as [_ Hrest].
    destruct (Hrest eq_refl eq_refl (user_json "1" alice) demo_store eq_refl)
      as [_ Hknown].
    destruct (Hknown eq_refl (VBool false) demo_store eq_refl) as [Hwrong _].
    by rewrite Hwrong.
  - pose proof (updatePassword_check_order demo_service
      (mkRequest (with_id "1")
         (password_change (VStr "wonderland") (VNum 5) (VNum 5)))
      demo_store eq_refl) as [_ Hrest].
    destruct (Hrest eq_refl eq_refl (user_json "1" alice) demo_store eq_refl)
      as [_ Hknown].
    destruct (Hknown eq_refl (VBool true) demo_store eq_refl) as [_ Hright].
    by rewrite (Hright eq_refl VNull demo_store eq_refl eq_refl).
Defined.


Lemma updatePassword_success_payload_witness :
  let request :=
    mkRequest (with_id "1")
      (password_change (VStr "wonderland") (VStr "rabbit") (VStr "rabbit")) in
  let payload :=
    VObj [("id", VStr "1"); ("password_new", VStr "rabbit");
          ("message", VStr "password was succesfully updated")] in
  run demo_service (updatePassword request) demo_store =
    (Normal (Responded 200 payload), demo_store_rabbit,
     [(GetUser (VStr "1"), Returned (user_json "1" alice));
      (PasswordMatched (VStr "wonderland") (VStr (demo_hash "wonderland")),
       Returned (VBool true));
      (UpdatePassword (VStr "1") (VStr "rabbit"), Returned (VBool true));
      (ResJson 200 payload, Returned VUndefined)])
  /\ field payload "password_new" = VStr "rabbit".
Proof.
  cbv zeta.
  apply (updatePassword_success_payload demo_service
           (mkRequest (with_id "1")
              (password_change (VStr "wonderland") (VStr "rabbit") (VStr "rabbit")))
           demo_store demo_store demo_store demo_store_rabbit demo_store_rabbit
           (user_json "1" alice) (VBool true) (VBool true) VUndefined);
    reflexivity.
Defined.

Lemma createUser_success_payload_witness :
  let request :=
    mkRequest (VObj []) (registration "carol" "carol@example.com" "pw" "pw") in
  let payload := VObj [("name", VStr "carol"); ("email", VStr "carol@example.com")] in
  let created :=
    <[demo_new_id demo_store := mkUser "carol" "carol@example.com" (demo_hash "pw")]>
      demo_store in
  run demo_service (createUser request) demo_store =
    (Normal (Responded 200 payload), created,
     [(GetUserByEmail (VStr "carol@example.com"), Returned VNull);
      (CreateUser (VStr "carol") (VStr "carol@example.com") (VStr "pw"),
       Returned (VBool true));
      (ResJson 200 payload, Returned VUndefined)])
  /\ get_prop payload "password" = inr VUndefined
  /\ get_prop payload "password_confirm" = inr VUndefined.
Proof.
  cbv zeta.
  apply (createUser_success_payload demo_service
           (mkRequest (VObj []) (registration "carol" "carol@example.com" "pw" "pw"))
           demo_store demo_store
           (<[demo_new_id demo_store :=
                mkUser "carol" "carol@example.com" (demo_hash "pw")]> demo_store)
           (<[demo_new_id demo_store :=
                mkUser "carol" "carol@example.com" (demo_hash "pw")]> demo_store)
           (VBool true) VUndefined);
    reflexivity.
Defined.

Lemma getUser_returns_service_user_witness :
  run demo_service (getUser (mkRequest (with_id "2") VUndefined)) demo_store =
    (Normal (Responded 200 (user_json "2" bob)), demo_store,
     [(GetUser (VStr "2"), Returned (user_json "2" bob));
      (ResJson 200 (user_json "2" bob), Returned VUndefined)])
  /\ forall payload,
       outcome_of (run demo_service (getUser (mkRequest (with_id "2") VUndefined))
                     demo_store)
       = Normal (Responded 200 payload) ->
       field payload "password" = VStr (demo_hash "builder").
Proof.
  apply (getUser_returns_service_user demo_service
           (mkRequest (with_id "2") VUndefined) demo_store demo_store demo_store
           (user_json "2" bob) VUndefined);
    reflexivity.
Defined.

Lemma createUser_email_taken_iff_lookup_not_null_witness :
  let request :=
    mkRequest (VObj []) (registration "bobby" "bob@example.com" "pw" "pw") in
  let result := run demo_service (createUser request) demo_store in
  (result =
     (Normal (Forwarded (errorResponder EMAIL_ALREADY_TAKEN
                "Failed to create user, email is already taken")),
      demo_store,
      [(GetUserByEmail (VStr "bob@example.com"), Returned (user_json "2" bob))])
   <-> strict_neq (user_json "2" bob) VNull = true)
  /\
  (strict_neq (user_json "2" bob) VNull = false ->
   exists rest,
     trace_of result =
       (GetUserByEmail (VStr "bob@example.com"), Returned (user_json "2" bob))
       :: (CreateUser (VStr "bobby") (VStr "bob@example.com") (VStr "pw"),
           (demo_service
              (CreateUser (VStr "bobby") (VStr "bob@example.com") (VStr "pw"))
              demo_store).1)
       :: rest)
  /\ existsb is_CreateUser (calls (trace_of result))
     = negb (strict_neq (user_json "2" bob) VNull).
Proof.
  cbv zeta.
  apply (createUser_email_taken_iff_lookup_not_null demo_service
           (mkRequest (VObj []) (registration "bobby" "bob@example.com" "pw" "pw"))
           demo_store demo_store (user_json "2" bob));
    reflexivity.
Defined.

Lemma deleteUser_then_getUser_witness :
  outcome_of (run demo_service (deleteUser (mkRequest (with_id "2") VUndefined))
                demo_store)
  = Normal (Responded 200 (with_id "2"))
  /\ outcome_of
       (run demo_service (getUser (mkRequest (with_id "2") VUndefined))
          (world_of (run demo_service
                       (deleteUser (mkRequest (with_id "2") VUndefined))
                       demo_store)))
     = Normal (Forwarded (errorResponder UNPROCESSABLE_ENTITY "Unknown user")).
Proof.
  split; [reflexivity|].
  apply (deleteUser_then_getUser demo_hash demo_matched demo_new_id
           (mkRequest (with_id "2") VUndefined) demo_store (with_id "2")).
  reflexivity.
Defined.

(** C3 fails as stated.  Over a service whose lookup by email answers
    [undefined] when it finds no user, and an empty store (no user has the
    email of the request), [createUser] with matching passwords raises
    [EMAIL_ALREADY_TAKEN] and makes no creation call. *)
Lemma createUser_undefined_lookup_counterexample :
  let request :=
    mkRequest (VObj []) (registration "carol" "carol@example.com" "pw" "pw") in
  let result := run undefined_service (createUser request) ∅ in
  (forall i u, (∅ : gmap string User) !! i = Some u ->
               user_email u <> "carol@example.com")
  /\ result =
       (Normal (Forwarded (errorResponder EMAIL_ALREADY_TAKEN
                  "Failed to create user, email is already taken")),
        ∅,
        [(GetUserByEmail (VStr "carol@example.com"), Returned VUndefined)]).
Proof.
  cbv zeta. split.
  - intros i u Hlookup. by rewrite lookup_empty in Hlookup.
  - reflexivity.
Qed.

(** C2 fails on [updateUser].  In the worked store the two emails are
    distinct; the request to give user ["2"] the email of user ["1"] is
    answered with status 200, and the store it leaves holds the same email
    twice. *)
Theorem updateUser_duplicates_email :
  let request :=
    mkRequest (with_id "2")
      (VObj [("name", VStr "bob"); ("email", VStr "alice@example.com")]) in
  unique_emails demo_store
  /\ outcome_of (run demo_service (updateUser request) demo_store)
     = Normal (Responded 200 (with_id "2"))
  /\ ~ unique_emails (serve demo_hash demo_matched demo_new_id
                        [(HUpdateUser, request)] demo_store).
Proof.
  cbv zeta. split; [|split].
  - exact demo_store_unique_emails.
  - reflexivity.
  - intros Hunique.
    assert (Hserved :
      serve demo_hash demo_matched demo_new_id
        [(HUpdateUser,
          mkRequest (with_id "2")
            (VObj [("name", VStr "bob"); ("email", VStr "alice@example.com")]))]
        demo_store
      = <["2" := mkUser "bob" "alice@example.com" (demo_hash "builder")]> demo_store)
      by (vm_compute; reflexivity).
    rewrite Hserved in Hunique.
    specialize (Hunique "1" "2" alice
                  (mkUser "bob" "alice@example.com" (demo_hash "builder"))).
    discriminate Hunique; reflexivity.
Qed.

Lemma getUsers_lists_service_users_witness :
  run demo_service (getUsers (mkRequest VUndefined VUndefined)) ∅ =
    (Normal (Responded 200 (VArr [])), ∅,
     [(GetUsers, Returned (VArr [])); (ResJson 200 (VArr []), Returned VUndefined)]).
Proof.
  apply (getUsers_lists_service_users demo_service
           (mkRequest VUndefined VUndefined) ∅ ∅ ∅ (VArr []) VUndefined);
    reflexivity.
Defined.

Lemma getUser_unknown_user_witness :
  run demo_service (getUser (mkRequest (with_id "9") VUndefined)) demo_store =
    (Normal (Forwarded (errorResponder UNPROCESSABLE_ENTITY "Unknown user")),
     demo_store, [(GetUser (VStr "9"), Returned VNull)]).
Proof.
  apply (getUser_unknown_user demo_service
           (mkRequest (with_id "9") VUndefined) demo_store demo_store VNull);
    reflexivity.
Defined.

Lemma updateUser_delegates_witness :
  let request :=
    mkRequest (with_id "2")
      (VObj [("name", VStr "robert"); ("email", VStr "bob@example.com")]) in
  run demo_service (updateUser request) demo_store =
    (Normal (Responded 200 (with_id "2")),
     <["2" := mkUser "robert" "bob@example.com" (demo_hash "builder")]> demo_store,
     [(UpdateUser (VStr "2") (VStr "robert") (VStr "bob@example.com"),
       Returned (VBool true));
      (ResJson 200 (with_id "2"), Returned VUndefined)]).
Proof.
  cbv zeta.
  pose proof (updateUser_delegates demo_service
    (mkRequest (with_id "2")
       (VObj [("name", VStr "robert"); ("email", VStr "bob@example.com")]))
    demo_store
    (<["2" := mkUser "robert" "bob@example.com" (demo_hash "builder")]> demo_store)
    (VBool true) eq_refl eq_refl eq_refl) as [_ Hdone].
  exact (Hdone eq_refl VUndefined _ eq_refl).
Defined.

Lemma deleteUser_delegates_witness :
  run demo_service (deleteUser (mkRequest (with_id "9") VUndefined)) demo_store =
    (Normal (Forwarded (errorResponder UNPROCESSABLE_ENTITY "Failed to delete user")),
     demo_store, [(DeleteUser (VStr "9"), Returned VNull)]).
Proof.
  pose proof (deleteUser_delegates demo_service
    (mkRequest (with_id "9") VUndefined) demo_store demo_store VNull
    eq_refl eq_refl) as [Hfailed _].
  exact (Hfailed eq_refl).
Defined.

Lemma updatePassword_object_passes_check_witness :
  let request :=
    mkRequest (with_id "1")
      (password_change (VStr "looking-glass") (VStr "rabbit") (VStr "rabbit")) in
  exists rest,
    trace_of (run promise_service (updatePassword request) demo_store) =
      (GetUser (VStr "1"), Returned (user_json "1" alice))
      :: (PasswordMatched (VStr "looking-glass") (VStr (demo_hash "wonderland")),
          Returned (VObj []))
      :: (UpdatePassword (VStr "1") (VStr "rabbit"), Returned (VBool true))
      :: rest.
Proof.
  cbv zeta.
  apply (updatePassword_object_passes_check promise_service
           (mkRequest (with_id "1")
              (password_change (VStr "looking-glass") (VStr "rabbit") (VStr "rabbit")))
           demo_store demo_store demo_store (user_json "1" alice) []);
    reflexivity.
Defined.

Lemma createUser_without_body_witness :
  run demo_service (createUser (mkRequest (VObj []) VUndefined)) demo_store =
    (Normal (Forwarded (TypeError VUndefined "name")), demo_store, []).
Proof.
  apply (createUser_without_body demo_service
           (mkRequest (VObj []) VUndefined) demo_store).
  reflexivity.
Defined.

Lemma serve_but_updateUser_keeps_emails_unique_witness :
  unique_emails
    (serve demo_hash demo_matched demo_new_id
       [(HCreateUser,
         mkRequest (VObj []) (registration "carol" "carol@example.com" "pw" "pw"));
        (HUpdatePassword,
         mkRequest (with_id "1")
           (password_change (VStr "wonderland") (VStr "rabbit") (VStr "rabbit")));
        (HDeleteUser, mkRequest (with_id "2") VUndefined)]
       demo_store).
Proof.
  apply serve_but_updateUser_keeps_emails_unique.
  - repeat constructor; discriminate.
  - exact demo_store_unique_emails.
Defined.

Lemma createUser_then_getUser_witness :
  let created :=
    run demo_service
      (createUser (mkRequest (VObj [])
                     (registration "carol" "carol@example.com" "pw" "pw")))
      demo_store in
  outcome_of created =
    Normal (Responded 200
              (VObj [("name", VStr "carol"); ("email", VStr "carol@example.com")]))
  /\ outcome_of (run demo_service
                   (getUser (mkRequest (with_id (demo_new_id demo_store)) VUndefined))
                   (world_of created))
     = Normal (Responded 200
                 (user_json (demo_new_id demo_store)
                    (mkUser "carol" "carol@example.com" (demo_hash "pw")))).
Proof.
  cbv zeta.
  apply (createUser_then_getUser demo_hash demo_matched demo_new_id
           (VObj []) "carol" "carol@example.com" "pw" demo_store).
  intros i u Hi. unfold demo_store in Hi.
  repeat match goal with
  | H : <[_:=_]> _ !! _ = Some _ |- _ =>
      apply lookup_insert_Some in H as [[<- <-]|[? H]]
  | H : ∅ !! _ = Some _ |- _ => by rewrite lookup_empty in H
  end; done.
Defined.

Lemma handlers_raise_only_their_errors_witness :
  In (errorResponder UNPROCESSABLE_ENTITY "Unknown user")
     (raises HGetUser (mkRequest (with_id "9") VUndefined)).
Proof.
  apply (handlers_raise_only_their_errors demo_service HGetUser
           (mkRequest (with_id "9") VUndefined) demo_store);
    reflexivity.
Defined.

Lemma handlers_without_request_part_witness :
  run demo_service (handle HUpdatePassword (mkRequest (with_id "1") VNull))
    demo_store
  = (Normal (Forwarded (TypeError VNull "password_old")), demo_store, []).
Proof.
  apply (handlers_without_request_part demo_service HUpdatePassword
           (mkRequest (with_id "1") VNull) demo_store VNull "password_old");
    reflexivity.
Defined.

Lemma handlers_respond_only_after_success_witness :
  exists success,
    In (DeleteUser (VStr "2"), Returned success)
       (trace_of (run demo_service
                    (handle HDeleteUser (mkRequest (with_id "2") VUndefined))
                    demo_store))
    /\ truthy success = true.
Proof.
  apply (handlers_respond_only_after_success demo_service HDeleteUser
           (mkRequest (with_id "2") VUndefined) demo_store
           (DeleteUser (VStr "2")) 200 (with_id "2"));
    reflexivity.
Defined.

Lemma createUser_creates_only_after_checks_witness :
  let request :=
    mkRequest (VObj []) (registration "carol" "carol@example.com" "pw" "pw") in
  CreateUser (VStr "carol") (VStr "carol@example.com") (VStr "pw")
  = CreateUser (field (body request) "name") (field (body request) "email")
      (field (body request) "password")
  /\ strict_neq (field (body request) "password")
       (field (body request) "password_confirm") = false
  /\ In (GetUserByEmail (field (body request) "email"), Returned VNull)
       (trace_of (run demo_service (createUser request) demo_store)).
Proof.
  cbv zeta.
  apply (createUser_creates_only_after_checks demo_service
           (mkRequest (VObj []) (registration "carol" "carol@example.com" "pw" "pw"))
           demo_store
           (CreateUser (VStr "carol") (VStr "carol@example.com") (VStr "pw"))
           (Returned (VBool true))).
  - right. left. reflexivity.
  - reflexivity.
Defined.

Lemma updatePassword_updates_only_after_checks_witness :
  let request :=
    mkRequest (with_id "1")
      (password_change (VStr "wonderland") (VStr "rabbit") (VStr "rabbit")) in
  let t := trace_of (run demo_service (updatePassword request) demo_store) in
  UpdatePassword (VStr "1") (VStr "rabbit")
  = UpdatePassword (field (params request) "id")
      (field (body request) "password_new")
  /\ strict_neq (field (body request) "password_new")
       (field (body request) "password_new_confirm") = false
  /\ exists user matched,
       In (GetUser (field (params request) "id"), Returned user) t
       /\ truthy user = true
       /\ In (PasswordMatched (field (body request) "password_old")
                (field user "password"), Returned matched) t
       /\ truthy matched = true.
Proof.
  cbv zeta.
  apply (updatePassword_updates_only_after_checks demo_service
           (mkRequest (with_id "1")
              (password_change (VStr "wonderland") (VStr "rabbit") (VStr "rabbit")))
           demo_store (UpdatePassword (VStr "1") (VStr "rabbit"))
           (Returned (VBool true))).
  - right. right. left. reflexivity.
  - reflexivity.
Defined.

Lemma createUser_missing_passwords_pass_witness :
  exists rest,
    trace_of (run demo_service
                (createUser (mkRequest (VObj []) (VObj [("name", VStr "dave")])))
                demo_store)
    = (GetUserByEmail VUndefined, Returned VNull) :: rest.
Proof.
  apply (createUser_missing_passwords_pass demo_service
           (mkRequest (VObj []) (VObj [("name", VStr "dave")])) demo_store);
    reflexivity.
Defined.

Lemma createUser_response_failure_witness :
  let payload := VObj [("name", VStr "carol"); ("email", VStr "carol@example.com")] in
  let created :=
    <[demo_new_id demo_store := mkUser "carol" "carol@example.com" (demo_hash "pw")]>
      demo_store in
  run closed_socket_service
    (createUser (mkRequest (VObj [])
                   (registration "carol" "carol@example.com" "pw" "pw")))
    demo_store
  = (Normal (Forwarded (Thrown (VStr "socket closed"))), created,
     [(GetUserByEmail (VStr "carol@example.com"), Returned VNull);
      (CreateUser (VStr "carol") (VStr "carol@example.com") (VStr "pw"),
       Returned (VBool true));
      (ResJson 200 payload, Raised (Thrown (VStr "socket closed")))]).
Proof.
  cbv zeta.
  apply (createUser_response_failure closed_socket_service
           (mkRequest (VObj []) (registration "carol" "carol@example.com" "pw" "pw"))
           demo_store demo_store
           (<[demo_new_id demo_store :=
                mkUser "carol" "carol@example.com" (demo_hash "pw")]> demo_store)
           (<[demo_new_id demo_store :=
                mkUser "carol" "carol@example.com" (demo_hash "pw")]> demo_store)
           (VBool true) (Thrown (VStr "socket closed")));
    reflexivity.
Defined.

Lemma handlers_without_second_request_part_witness :
  run demo_service
    (updatePassword
       (mkRequest VUndefined
          (password_change (VStr "wonderland") (VStr "rabbit") (VStr "rabbit"))))
    demo_store
  = (Normal (Forwarded (TypeError VUndefined "id")), demo_store, [])
  /\ run demo_service (updateUser (mkRequest (with_id "2") VUndefined)) demo_store
     = (Normal (Forwarded (TypeError VUndefined "name")), demo_store, []).
Proof.
  split.
  - pose proof (handlers_without_second_request_part demo_service
      (mkRequest VUndefined
         (password_change (VStr "wonderland") (VStr "rabbit") (VStr "rabbit")))
      demo_store) as [Hpassword _].
    exact (Hpassword eq_refl eq_refl eq_refl).
  - pose proof (handlers_without_second_request_part demo_service
      (mkRequest (with_id "2") VUndefined) demo_store) as [_ Huser].
    exact (Huser eq_refl eq_refl).
Defined.

